(** * Bulk GitHub repository deleter: a shallow embedding of [go_and_delete.go]

    The program is a handful of HTTP handlers around one package-level
    variable, [githubClient].  Each handler is embedded as a computation in a
    small state-and-failure monad: the state holds the package variable, what
    the handler has sent to its [http.ResponseWriter], the state of the remote
    provider and the list of outbound calls made so far; a computation either
    returns, panics (a Go run-time panic, which [net/http] recovers per
    request) or ends the process ([log.Fatalf]). *)

From Stdlib Require Import ZArith Ascii String List Bool Lia.
From stdpp Require Import base option strings list gmap.

Local Open Scope string_scope.
Local Open Scope Z_scope.
Local Open Scope list_scope.

(** ** Go library functions used by the program *)

(** [strings.Split(s, sep)] for a one-byte separator: the substrings between
    the occurrences of [sep]; a string with [n] separators gives [n + 1]
    substrings. *)
Fixpoint strings_Split (s : string) (sep : ascii) : list string :=
  match s with
  | EmptyString => [EmptyString]
  | String c s' =>
      if Ascii.eqb c sep then EmptyString :: strings_Split s' sep
      else match strings_Split s' sep with
           | [] => [String c EmptyString]
           | p :: ps => String c p :: ps
           end
  end.

(** The prefix of [s] before the first [sep] and the rest after it, when
    there is one. *)
Fixpoint cut (s : string) (sep : ascii) : option (string * string) :=
  match s with
  | EmptyString => None
  | String c s' =>
      if Ascii.eqb c sep then Some (EmptyString, s')
      else match cut s' sep with
           | Some (before, after) => Some (String c before, after)
           | None => None
           end
  end.

(** [fmt.Sscanf(p, "%d", &page)] on the bytes of [p].  The scanner skips
    the leading Unicode spaces ([SkipSpace]; a newline is an error), takes an
    optional sign and then the longest run of the digits [0] to [9], which
    must not be empty; the token is handed to
    [strconv.ParseInt(tok, 10, 64)], which rejects a value outside the
    64-bit range.  The rest of the input is left unread.  On any error the
    target keeps its value: [None] here. *)

(** The one-byte spaces other than the newline: tab, vertical tab, form
    feed, carriage return and the blank. *)
Definition is_blank (c : ascii) : bool :=
  let n := nat_of_ascii c in
  (n =? 32)%nat || (n =? 9)%nat || (n =? 11)%nat || (n =? 12)%nat
  || (n =? 13)%nat.

(** The two-byte spaces, in UTF-8: U+0085 and U+00A0. *)
Definition two_byte_space (c1 c2 : ascii) : bool :=
  let b1 := nat_of_ascii c1 in
  let b2 := nat_of_ascii c2 in
  ((b1 =? 194) && ((b2 =? 133) || (b2 =? 160)))%nat.

(** The three-byte spaces, in UTF-8: U+1680, U+2000 to U+200A, U+2028,
    U+2029, U+202F, U+205F and U+3000. *)
Definition three_byte_space (c1 c2 c3 : ascii) : bool :=
  let b1 := nat_of_ascii c1 in
  let b2 := nat_of_ascii c2 in
  let b3 := nat_of_ascii c3 in
  ((b1 =? 225) && (b2 =? 154) && (b3 =? 128)
   || (b1 =? 226) && (b2 =? 128)
      && ((128 <=? b3) && (b3 <=? 138) || (b3 =? 168) || (b3 =? 169)
          || (b3 =? 175))
   || (b1 =? 226) && (b2 =? 129) && (b3 =? 159)
   || (b1 =? 227) && (b2 =? 128) && (b3 =? 128))%nat.

Fixpoint skip_space (s : string) : string :=
  match s with
  | EmptyString => s
  | String c1 s1 =>
      if (nat_of_ascii c1 <? 128)%nat then
        if is_blank c1 then skip_space s1 else s
      else
        match s1 with
        | EmptyString => s
        | String c2 s2 =>
            if two_byte_space c1 c2 then skip_space s2
            else
              match s2 with
              | EmptyString => s
              | String c3 s3 =>
                  if three_byte_space c1 c2 c3 then skip_space s3 else s
              end
        end
  end.

Definition digit_of (c : ascii) : option Z :=
  let n := nat_of_ascii c in
  if ((48 <=? n) && (n <=? 57))%nat then Some (Z.of_nat n - 48) else None.

Definition is_digit (c : ascii) : bool :=
  match digit_of c with Some _ => true | None => false end.

(** The run of digits at the head of [s]. *)
Fixpoint scanNumber (s : string) : list ascii :=
  match s with
  | String c s' => if is_digit c then c :: scanNumber s' else []
  | EmptyString => []
  end.

(** [strconv.ParseInt] in base 10 on the digits of a token, left to right. *)
Fixpoint parse_digits (tok : list ascii) (acc : Z) : option Z :=
  match tok with
  | [] => Some acc
  | c :: tok' =>
      match digit_of c with
      | Some d => parse_digits tok' (10 * acc + d)
      | None => None
      end
  end.

Definition minInt64 : Z := - 2 ^ 63.
Definition maxInt64 : Z := 2 ^ 63 - 1.

Definition fmt_Sscanf_d (p : string) : option Z :=
  match skip_space p with
  | EmptyString => None
  | String c rest =>
      let negative := Ascii.eqb c "-" in
      let signed := negative || Ascii.eqb c "+" in
      let tok := scanNumber (if signed then rest else String c rest) in
      match tok with
      | [] => None
      | _ =>
          match parse_digits tok 0 with
          | Some n =>
              let i := if negative then - n else n in
              if (minInt64 <=? i) && (i <=? maxInt64) then Some i else None
          | None => None
          end
      end
  end.

(** [url.Values] is a [map[string][]string]; [Get] is the first value of the
    key, or the empty string. *)
Definition Values_Get (v : gmap string (list string)) (key : string) : string :=
  match v !! key with
  | Some (x :: _) => x
  | _ => ""
  end.

(** Indexing a [nil] map or a missing key gives the zero value, a [nil]
    slice. *)
Definition Values_index (v : gmap string (list string)) (key : string)
  : list string :=
  default [] (v !! key).

(** [os.Getenv]: the value of the variable, empty when it is not set. *)
Definition os_Getenv (env : gmap string string) (key : string) : string :=
  default "" (env !! key).

(** ** Data *)

(** The authenticated client handle: [github.NewClient] around an
    [oauth2] client whose static token source holds [AccessToken]. *)
Record Client := { AccessToken : string }.

(** A Go [error] value as the program looks at it: its dynamic type is
    [*github.ErrorResponse], whose [Response.StatusCode] the program reads,
    or another one; either way [Error()] gives its text.  Of the other
    types, [*github.RateLimitError] is the one the client library returns
    for a response with status 403 whose rate limit is used up;
    [errorString] stands for the errors that come with no response. *)
Inductive error :=
| ErrorResponse (StatusCode : Z) (text : string)
| RateLimitError (text : string)
| errorString (text : string).

Definition Error (e : error) : string :=
  match e with
  | ErrorResponse _ t => t
  | RateLimitError t => t
  | errorString t => t
  end.

(** The status of the HTTP response an error came with, if any. *)
Definition HTTPStatus (e : error) : option Z :=
  match e with
  | ErrorResponse code _ => Some code
  | RateLimitError _ => Some 403
  | errorString _ => None
  end.

Record ListOptions := { PerPage : Z; Page : Z }.

(** [github.Repository]: [FullName] is a [*string]. *)
Record Repository := { FullName : option string }.

(** The part of [github.Response] the program reads. *)
Record Response := { PrevPage : Z; NextPage : Z }.

(** The outbound request of the token exchange. *)
Record Request := {
  Method : string;
  URL : string;
  Body : string;
  Accept : string
}.

(** A decoded JSON value, as [map[string]interface{}] holds it. *)
Inductive json :=
| JString (s : string)
| JNumber (z : Z)
| JBool (b : bool)
| JNull
| JNested.

(** The anonymous struct handed to the page template. *)
Record PageData := {
  Repos : list string;
  HasPrev : bool;
  HasNext : bool;
  PrevPageNo : Z;
  NextPageNo : Z;
  IsLoggedIn : bool
}.

(** The three branches of the delete loop. *)
Inductive DeleteResult :=
| Deleted
| Forbidden
| OtherError (message : string).

(** What a handler sends to its [http.ResponseWriter], in order. *)
Inductive Sent :=
| Redirect (url : string) (code : Z)      (* http.Redirect *)
| HttpError (msg : string) (code : Z)     (* http.Error *)
| Fprintf (text : string)                 (* fmt.Fprintf(w, ...) *)
| Execute (data : PageData).              (* t.Execute(w, data) *)

Definition StatusFound : Z := 302.
Definition StatusBadRequest : Z := 400.
Definition StatusInternalServerError : Z := 500.

(** An inbound request: the URL query and the parsed form. *)
Record HttpRequest := {
  Query : gmap string (list string);
  Form : gmap string (list string)
}.

(** The package-level variables set from the environment when the program
    is loaded. *)
Record Config := {
  clientID : string;
  clientSecret : string;
  redirectURI : string
}.

Definition load_config (env : gmap string string) : Config :=
  {| clientID := os_Getenv env "OAUTH_CLIENT_ID";
     clientSecret := os_Getenv env "OAUTH_CLIENT_SECRET";
     redirectURI := "http://localhost:8989/callback" |}.

(** Outbound calls, recorded in the order they are made. *)
Inductive Call :=
| CallList (c : Client) (options : ListOptions)
| CallDelete (c : Client) (owner repoName : string)
| CallDo (req : Request).

(** ** The provider

    The hosting service is outside the program.  It has a state of its own
    (a repository deleted once is gone) and answers the three calls the
    program makes. *)
Class Provider (R : Type) := {
  Repositories_List :
    Client -> ListOptions -> R -> (error + list Repository * Response) * R;
  Repositories_Delete :
    Client -> string -> string -> R -> option error * R;
  (** [client.Do(req)] followed by decoding the body into a map: an error
      of the transport, or the decoded map (empty when the body does not
      decode). *)
  http_Do : Request -> R -> (error + gmap string json) * R
}.

(** ** The monad of handlers *)

Inductive panic :=
| IndexOutOfRange (index len : nat)
| NilPointerDereference.

(** How a computation ends: it returns, it panics, or [log.Fatalf] prints
    its line and ends the process with [os.Exit(1)]. *)
Inductive result (A : Type) :=
| Ok (a : A)
| Panic (p : panic)
| Exit (format : string).
Arguments Ok {A} a.
Arguments Panic {A} p.
Arguments Exit {A} format.

Section Handlers.
Context {R : Type} `{Provider R}.

Record State := {
  githubClient : option Client;   (* the package variable; [None] is nil *)
  w : list Sent;                  (* sent to the response writer so far *)
  remote : R;                     (* the provider *)
  calls : list Call               (* outbound calls so far *)
}.

Definition M (A : Type) : Type := State -> result A * State.

Definition ret {A} (a : A) : M A := fun s => (Ok a, s).

Definition bind {A B} (m : M A) (k : A -> M B) : M B :=
  fun s =>
    match m s with
    | (Ok a, s') => k a s'
    | (Panic p, s') => (Panic p, s')
    | (Exit f, s') => (Exit f, s')
    end.

Definition raise {A} (p : panic) : M A := fun s => (Panic p, s).

Definition log_Fatalf {A} (format : string) : M A :=
  fun s => (Exit format, s).

Definition send (e : Sent) : M unit :=
  fun s => (Ok tt, {| githubClient := githubClient s; w := w s ++ [e];
                      remote := remote s; calls := calls s |}).

Definition read_githubClient : M (option Client) :=
  fun s => (Ok (githubClient s), s).

Definition write_githubClient (c : option Client) : M unit :=
  fun s => (Ok tt, {| githubClient := c; w := w s;
                      remote := remote s; calls := calls s |}).

(** Selecting a field or method through the package variable: a nil
    pointer panics. *)
Definition deref_githubClient : M Client :=
  fun s =>
    match githubClient s with
    | Some c => (Ok c, s)
    | None => (Panic NilPointerDereference, s)
    end.

(** [parts[i]] on a slice. *)
Definition index {A} (parts : list A) (i : nat) : M A :=
  match nth_error parts i with
  | Some x => ret x
  | None => raise (IndexOutOfRange i (length parts))
  end.

Definition call {A} (c : Call) (f : R -> A * R) : M A :=
  fun s =>
    let (a, r') := f (remote s) in
    (Ok a, {| githubClient := githubClient s; w := w s;
              remote := r'; calls := calls s ++ [c] |}).
End Handlers.

Arguments State R : clear implicits.
Arguments M R A : clear implicits.


(** stdpp's notations [x ← m; k] and [m;; k] for the monad. *)
#[global] Instance M_ret {R} : MRet (M R) := @ret R.
#[global] Instance M_bind {R} : MBind (M R) := fun A B k m => bind m k.

(** ** The handlers *)

Section Program.
Context {R : Type} `{Provider R}.
Variable cfg : Config.

(** [githubClient != nil]. *)
Definition not_nil (c : option Client) : bool :=
  match c with Some _ => true | None => false end.

(** Lines 89-92: [page] starts at 1 and is overwritten only when the
    [page] parameter is not empty and scans as an integer. *)
Definition page_of (r : HttpRequest) : Z :=
  let page := 1 in
  let p := Values_Get (Query r) "page" in
  if decide (p = "") then page
  else match fmt_Sscanf_d p with
       | Some n => n
       | None => page
       end.

(** Lines 104-107: [repoNames = append(repoNames, *repo.FullName)]. *)
Fixpoint repo_names (repos : list Repository) (repoNames : list string)
  : M R (list string) :=
  match repos with
  | [] => mret repoNames
  | repo :: rest =>
      match FullName repo with
      | Some name => repo_names rest (repoNames ++ [name])
      | None => raise NilPointerDereference
      end
  end.

Definition page_data (repoNames : list string) (resp : Response)
    (c : option Client) : PageData :=
  {| Repos := repoNames;
     HasPrev := PrevPage resp >? 0;
     HasNext := NextPage resp >? 0;
     PrevPageNo := PrevPage resp;
     NextPageNo := NextPage resp;
     IsLoggedIn := not_nil c |}.

Definition homeHandler (r : HttpRequest) : M R unit :=
  c ← read_githubClient;
  if negb (not_nil c) then send (Redirect "/login" StatusFound)
  else
    let page := page_of r in
    let options := {| PerPage := 10; Page := page |} in
    client ← deref_githubClient;
    res ← call (CallList client options) (Repositories_List client options);
    match res with
    | inl err => send (HttpError (Error err) StatusInternalServerError)
    | inr (repos, resp) =>
        repoNames ← repo_names repos [];
        c' ← read_githubClient;
        send (Execute (page_data repoNames resp c'))
    end.

Definition loginHandler (r : HttpRequest) : M R unit :=
  let url := "https://github.com/login/oauth/authorize?client_id="
             +:+ clientID cfg
             +:+ "&scope=repo,delete_repo&redirect_uri="
             +:+ redirectURI cfg in
  send (Redirect url StatusFound).

(** Lines 176-180: the request of the token exchange. *)
Definition token_request (code : string) : Request :=
  let url := "https://github.com/login/oauth/access_token" in
  let body := "client_id=" +:+ clientID cfg
              +:+ "&client_secret=" +:+ clientSecret cfg
              +:+ "&code=" +:+ code in
  {| Method := "POST"; URL := url; Body := body;
     Accept := "application/json" |}.

Definition exchangeCodeForToken (code : string) : M R string :=
  let req := token_request code in
  res ← call (CallDo req) (http_Do req);
  match res with
  | inl err => log_Fatalf "Failed to get token: %v"
  | inr result =>
      match result !! "access_token" with
      | Some (JString token) => mret token
      | _ => log_Fatalf "Failed to extract access token: %v"
      end
  end.

Definition callbackHandler (r : HttpRequest) : M R unit :=
  let code := Values_Get (Query r) "code" in
  if decide (code = "") then
    send (HttpError "Code not found" StatusBadRequest)
  else
    token ← exchangeCodeForToken code;
    write_githubClient (Some {| AccessToken := token |});;
    send (Redirect "/" StatusFound).

(** Lines 155-156: [parts := strings.Split(repo, "/")] and
    [owner, repoName := parts[0], parts[1]]. *)
Definition split_identifier (repo : string) : M R (string * string) :=
  let parts := strings_Split repo "/" in
  owner ← index parts 0;
  repoName ← index parts 1;
  mret (owner, repoName).

(** Lines 160-170: which branch the outcome of the delete call takes,
    and the line each branch writes. *)
Definition classify (err : option error) : DeleteResult :=
  match err with
  | Some e =>
      match e with
      | ErrorResponse 403 _ => Forbidden
      | _ => OtherError (Error e)
      end
  | None => Deleted
  end.

Definition render (repo : string) (d : DeleteResult) : string :=
  match d with
  | Forbidden =>
      "Failed to delete " +:+ repo
      +:+ ": You must have admin rights to delete this repository.<br>"
  | OtherError message =>
      "Failed to delete " +:+ repo +:+ ": " +:+ message +:+ "<br>"
  | Deleted => "Deleted: " +:+ repo +:+ "<br>"
  end.

(** The body of the loop of lines 154-171. *)
Definition delete_one (repo : string) : M R unit :=
  '(owner, repoName) ← split_identifier repo;
  client ← deref_githubClient;
  err ← call (CallDelete client owner repoName)
             (Repositories_Delete client owner repoName);
  send (Fprintf (render repo (classify err))).

Fixpoint delete_loop (repos : list string) : M R unit :=
  match repos with
  | [] => mret tt
  | repo :: rest => delete_one repo;; delete_loop rest
  end.

Definition deleteHandler (r : HttpRequest) : M R unit :=
  let repos := Values_index (Form r) "repos" in
  delete_loop repos;;
  send (Fprintf "<a href='/'>Go Back</a>").

Definition logoutHandler (r : HttpRequest) : M R unit :=
  write_githubClient None;;
  send (Redirect "/" StatusFound).
End Program.

(** ** Start-up *)

Inductive Route := Home | Login | Callback | Delete | Logout.

Definition handler {R} `{Provider R} (cfg : Config) (h : Route)
  : HttpRequest -> M R unit :=
  match h with
  | Home => homeHandler
  | Login => loginHandler cfg
  | Callback => callbackHandler cfg
  | Delete => deleteHandler
  | Logout => logoutHandler
  end.

(** The process after [main]: serving on an address with the registered
    patterns, or ended by [log.Fatal] when [http.ListenAndServe] returns. *)
Inductive Process :=
| Serving (cfg : Config) (stdout : list string) (addr : string)
          (mux : list (string * Route))
| Exited (stdout : list string) (msg : string).

(** [listen] is the error of binding the address, if any; the package
    variables are set from the environment before [main] runs. *)
Definition main (env : gmap string string) (listen : option error) : Process :=
  let cfg := load_config env in
  let mux := [("/", Home); ("/login", Login); ("/callback", Callback);
              ("/delete", Delete); ("/logout", Logout)] in
  let stdout := ["Starting server on :8989"] in
  match listen with
  | None => Serving cfg stdout ":8989" mux
  | Some err => Exited stdout (Error err)
  end.

(** [http.ServeMux] first compares the path with its cleaned form: a path
    is clean when it starts with [/] and none of its elements is empty
    (the last one apart: a trailing slash is kept), [.] or [..]. *)
Fixpoint clean_elements (elements : list string) : bool :=
  match elements with
  | [] => true
  | [last] => negb (String.eqb last ".") && negb (String.eqb last "..")
  | e :: rest =>
      negb (String.eqb e "") && negb (String.eqb e ".")
      && negb (String.eqb e "..") && clean_elements rest
  end.

Definition clean_path (path : string) : bool :=
  match strings_Split path "/" with
  | first :: e :: rest => String.eqb first "" && clean_elements (e :: rest)
  | _ => false
  end.

(** The patterns, on a clean path: a pattern without a trailing slash
    matches its path only, the pattern [/] matches every path. *)
Fixpoint mux_lookup (mux : list (string * Route)) (path : string)
  : option Route :=
  match mux with
  | [] => None
  | (pattern, h) :: rest =>
      if decide (pattern = path) then Some h
      else match mux_lookup rest path with
           | Some h' => Some h'
           | None => if decide (pattern = "/") then Some h else None
           end
  end.

(** Serving one request, other than a [CONNECT], on a running process: the
    handler that is run, if one is.  The mux answers a path that is not
    clean by itself, with a redirect to the cleaned path. *)
Definition serve {R} `{Provider R} (p : Process) (path : string)
    (r : HttpRequest) : option (M R unit) :=
  match p with
  | Serving cfg _ _ mux =>
      if clean_path path then
        match mux_lookup mux path with
        | Some h => Some (handler cfg h r)
        | None => None
        end
      else None
  | Exited _ _ => None
  end.

(** ** A sample provider

    A small hosting service to run the handlers on: the repositories that
    exist, those the caller may not delete, and what the token endpoint
    answers. *)
Record Hosting := {
  hosted : list string;
  protected : list string;
  token_endpoint : error + gmap string json
}.

Definition hosting_list (c : Client) (o : ListOptions) (h : Hosting)
  : (error + list Repository * Response) * Hosting :=
  (inr (map (fun n => {| FullName := Some n |}) (hosted h),
        {| PrevPage := if Page o >? 1 then Page o - 1 else 0;
           NextPage := 0 |}), h).

Definition hosting_delete (c : Client) (owner repoName : string) (h : Hosting)
  : option error * Hosting :=
  let full := owner +:+ "/" +:+ repoName in
  if bool_decide (full ∈ protected h) then
    (Some (ErrorResponse 403 "403 Must have admin rights to Repository."), h)
  else if bool_decide (full ∈ hosted h) then
    (None, {| hosted := filter (fun n => n <> full) (hosted h);
              protected := protected h;
              token_endpoint := token_endpoint h |})
  else (Some (ErrorResponse 404 "404 Not Found"), h).

#[global] Instance hosting_provider : Provider Hosting := {
  Repositories_List := hosting_list;
  Repositories_Delete := hosting_delete;
  http_Do := fun _ h => (token_endpoint h, h)
}.

Definition sample_hosting : Hosting :=
  {| hosted := ["alice/repoA"; "bob/repoB"];
     protected := ["alice/repoA"];
     token_endpoint := inr {[ "access_token" := JString "tok_1" ]} |}.

Definition unreachable_hosting : Hosting :=
  {| hosted := ["alice/repoA"; "bob/repoB"];
     protected := ["alice/repoA"];
     token_endpoint := inl (errorString "dial tcp: connection refused") |}.

Definition start (c : option Client) (h : Hosting) : State Hosting :=
  {| githubClient := c; w := []; remote := h; calls := [] |}.

Definition sample_client : Client := {| AccessToken := "tok_1" |}.

Definition sample_config : Config :=
  {| clientID := "id"; clientSecret := "secret";
     redirectURI := "http://localhost:8989/callback" |}.

Definition query (key value : string) : HttpRequest :=
  {| Query := {[ key := [value] ]}; Form := ∅ |}.

Definition selection (repos : list string) : HttpRequest :=
  {| Query := ∅; Form := {[ "repos" := repos ]} |}.

Definition bare_request : HttpRequest := {| Query := ∅; Form := ∅ |}.

(** ** A scripted provider

    A provider that gives the same prepared answer to every call, to run the
    handlers on answers the sample hosting service never gives. *)
Record Scripted := {
  list_answer : error + list Repository * Response;
  delete_answer : option error;
  do_answer : error + gmap string json
}.

#[global] Instance scripted_provider : Provider Scripted := {
  Repositories_List := fun _ _ h => (list_answer h, h);
  Repositories_Delete := fun _ _ _ h => (delete_answer h, h);
  http_Do := fun _ h => (do_answer h, h)
}.

Definition outage : Scripted :=
  {| list_answer := inl (ErrorResponse 503 "503 Service Unavailable");
     delete_answer := Some (ErrorResponse 503 "503 Service Unavailable");
     do_answer := inl (errorString "dial tcp: connection refused") |}.

Definition nameless : Scripted :=
  {| list_answer :=
       inr ([ {| FullName := Some "alice/repoA" |}; {| FullName := None |} ],
            {| PrevPage := 0; NextPage := 2 |});
     delete_answer := None;
     do_answer := inr ∅ |}.

Definition rate_limited : Scripted :=
  {| list_answer := inl (RateLimitError "403 API rate limit exceeded");
     delete_answer := Some (RateLimitError "403 API rate limit exceeded");
     do_answer := inr ∅ |}.

Definition scripted_start (c : option Client) (h : Scripted)
  : State Scripted :=
  {| githubClient := c; w := []; remote := h; calls := [] |}.

(** * Properties *)

(** Unfolds the monad's operations down to functions on states. *)
Ltac run :=
  unfold mbind, M_bind, mret, M_ret, bind, ret, raise, log_Fatalf, send,
    call, index, read_githubClient, write_githubClient, deref_githubClient;
  simpl.

(** ** Splitting *)

(** What lies before the next [sep], or all of [s] when there is none. *)
Definition first_segment (s : string) (sep : ascii) : string :=
  match cut s sep with
  | Some (before, _) => before
  | None => s
  end.

Lemma strings_Split_cut (s : string) (sep : ascii) :
  strings_Split s sep =
  match cut s sep with
  | Some (before, after) => before :: strings_Split after sep
  | None => [s]
  end.
Proof.
  induction s as [|c s IH]; simpl; [reflexivity|].
  destruct (Ascii.eqb c sep); [reflexivity|].
  rewrite IH. destruct (cut s sep) as [[before after]|]; reflexivity.
Qed.

Lemma strings_Split_head (s : string) (sep : ascii) :
  exists rest, strings_Split s sep = first_segment s sep :: rest.
Proof.
  rewrite strings_Split_cut. unfold first_segment.
  destruct (cut s sep) as [[before after]|]; eauto.
Qed.

Section Splitting.
Context {R : Type} `{Provider R}.

Lemma split_identifier_cut (repo before after : string) (s : State R) :
  cut repo "/" = Some (before, after) ->
  split_identifier repo s = (Ok (before, first_segment after "/"), s).
Proof.
  intros Hcut. unfold split_identifier.
  rewrite strings_Split_cut, Hcut.
  destruct (strings_Split_head after "/") as [rest ->].
  reflexivity.
Qed.

Lemma split_identifier_no_separator (repo : string) (s : State R) :
  cut repo "/" = None ->
  split_identifier repo s = (Panic (IndexOutOfRange 1 1), s).
Proof.
  intros Hcut. unfold split_identifier.
  rewrite strings_Split_cut, Hcut. reflexivity.
Qed.

(** One round of the loop on an identifier with a separator, with a
    client in place: one call, one line. *)
Lemma delete_one_run (repo before after : string) (c : Client)
    (s : State R) :
  githubClient s = Some c ->
  cut repo "/" = Some (before, after) ->
  delete_one repo s =
  let name := first_segment after "/" in
  let answer := Repositories_Delete c before name (remote s) in
  (Ok tt,
   {| githubClient := Some c;
      w := w s ++ [Fprintf (render repo (classify answer.1))];
      remote := answer.2;
      calls := calls s ++ [CallDelete c before name] |}).
Proof.
  intros Hc Hcut. unfold delete_one.
  unfold mbind at 1. unfold M_bind, bind.
  rewrite (split_identifier_cut _ _ _ _ Hcut).
  run. rewrite Hc. simpl.
  destruct (Repositories_Delete c before (first_segment after "/") (remote s))
    as [err r']. simpl. rewrite Hc. reflexivity.
Qed.
End Splitting.

(** C1 (as amended).  The identifier is split at every [/]: the owner is
    everything before the first [/], and the name is what lies between the
    first [/] and the next one, which is everything after the first [/] only
    when the identifier has no second [/].  With a client in place the
    delete call is made for that owner and that name. *)
Theorem delete_one_owner_and_name
    {R : Type} `{Provider R} (repo before after : string) (c : Client)
    (s : State R) :
  githubClient s = Some c ->
  cut repo "/" = Some (before, after) ->
  split_identifier repo s = (Ok (before, first_segment after "/"), s)
  /\ (delete_one repo s).1 = Ok tt
  /\ calls (delete_one repo s).2 =
     calls s ++ [CallDelete c before (first_segment after "/")]
  /\ (cut after "/" = None -> first_segment after "/" = after).
Proof.
  intros Hc Hcut. split; [by apply split_identifier_cut|].
  rewrite (delete_one_run _ _ _ _ _ Hc Hcut). simpl.
  repeat split. unfold first_segment. by intros ->.
Qed.

Lemma delete_one_owner_and_name_witness :
  let s := start (Some sample_client) sample_hosting in
  split_identifier "alice/repoA" s = (Ok ("alice", "repoA"), s)
  /\ calls (delete_one "alice/repoA" s).2 =
     [CallDelete sample_client "alice" "repoA"].
Proof.
  pose proof (delete_one_owner_and_name "alice/repoA" "alice" "repoA"
                sample_client (start (Some sample_client) sample_hosting)
                eq_refl eq_refl) as (Hsplit & _ & Hcalls & _).
  split; [exact Hsplit | exact Hcalls].
Defined.

(** C1 as stated fails on an identifier with two separators: the name of
    [a/b/c] is taken to be [b], not [b/c]. *)
Lemma split_identifier_second_separator :
  let s := start (Some sample_client) sample_hosting in
  cut "a/b/c" "/" = Some ("a", "b/c")
  /\ split_identifier "a/b/c" s = (Ok ("a", "b"), s)
  /\ split_identifier "a/b/c" s <> (Ok ("a", "b/c"), s).
Proof. simpl. repeat split. discriminate. Qed.

(** ** The callback and the token exchange *)

(** The answer of the token endpoint holds no usable token: the transport
    failed, or the decoded map has no string under [access_token]. *)
Definition no_access_token (res : error + gmap string json) : bool :=
  match res with
  | inl _ => true
  | inr result =>
      match result !! "access_token" with
      | Some (JString _) => false
      | _ => true
      end
  end.

Section Callback.
Context {R : Type} `{Provider R}.
Variable cfg : Config.

(** The state after the one outbound call of the exchange. *)
Definition after_exchange (code : string) (s : State R) : State R :=
  {| githubClient := githubClient s;
     w := w s;
     remote := (http_Do (token_request cfg code) (remote s)).2;
     calls := calls s ++ [CallDo (token_request cfg code)] |}.

Lemma exchange_fatal (code : string) (s : State R) :
  no_access_token (http_Do (token_request cfg code) (remote s)).1 = true ->
  exists format,
    exchangeCodeForToken cfg code s = (Exit format, after_exchange code s).
Proof.
  unfold exchangeCodeForToken, after_exchange, no_access_token. run.
  destruct (http_Do (token_request cfg code) (remote s)) as [[err|result] r'];
    simpl; [eauto|].
  destruct (result !! "access_token") as [[token| | | |]|];
    try discriminate; eauto.
Qed.

Lemma exchange_token (code token : string) (result : gmap string json)
    (r' : R) (s : State R) :
  http_Do (token_request cfg code) (remote s) = (inr result, r') ->
  result !! "access_token" = Some (JString token) ->
  exchangeCodeForToken cfg code s = (Ok token, after_exchange code s).
Proof.
  intros Hdo Htok. unfold exchangeCodeForToken, after_exchange. run.
  rewrite Hdo. simpl. rewrite Htok. reflexivity.
Qed.
End Callback.

(** C2 (as amended).  When the token endpoint is unreachable or its payload
    has no string under [access_token], the exchange ends the process through
    [log.Fatalf]: nothing is returned to the caller, the callback sends no
    response and the session is left as it was. *)
Theorem callback_exchange_failure_is_fatal
    {R : Type} `{Provider R} (cfg : Config) (r : HttpRequest) (s : State R) :
  let code := Values_Get (Query r) "code" in
  code <> "" ->
  no_access_token (http_Do (token_request cfg code) (remote s)).1 = true ->
  exists format,
    exchangeCodeForToken cfg code s = (Exit format, after_exchange cfg code s)
    /\ callbackHandler cfg r s = (Exit format, after_exchange cfg code s)
    /\ githubClient (callbackHandler cfg r s).2 = githubClient s
    /\ w (callbackHandler cfg r s).2 = w s.
Proof.
  intros code Hcode Hno.
  destruct (exchange_fatal cfg code s Hno) as [format Hex].
  exists format. split; [exact Hex|].
  assert (callbackHandler cfg r s = (Exit format, after_exchange cfg code s))
    as ->.
  { unfold callbackHandler. fold code.
    destruct (decide (code = "")) as [Heq|_]; [contradiction|].
    unfold mbind at 1. unfold M_bind, bind. rewrite Hex. reflexivity. }
  repeat split.
Qed.

Lemma callback_exchange_failure_is_fatal_witness :
  exists format,
    callbackHandler sample_config (query "code" "abc123")
      (start None unreachable_hosting)
    = (Exit format,
       after_exchange sample_config "abc123" (start None unreachable_hosting)).
Proof.
  destruct (callback_exchange_failure_is_fatal sample_config
              (query "code" "abc123") (start None unreachable_hosting))
    as (format & _ & Hcb & _).
  - vm_compute. discriminate.
  - reflexivity.
  - exists format. exact Hcb.
Defined.

(** C2 as stated fails when the endpoint cannot be reached: the handler does
    not return with an error, the process is ended. *)
Lemma callback_unreachable_endpoint_exits :
  (callbackHandler sample_config (query "code" "abc123")
     (start None unreachable_hosting)).1
  = Exit "Failed to get token: %v"
  /\ forall a : unit,
      (callbackHandler sample_config (query "code" "abc123")
         (start None unreachable_hosting)).1 <> Ok a.
Proof. split; [reflexivity | intros a; vm_compute; discriminate]. Qed.

(** The scenario of a successful exchange: the session holds a client bound
    to the token of the payload. *)
Example callback_scenario :
  let s := start None sample_hosting in
  (callbackHandler sample_config (query "code" "abc123") s).1 = Ok tt
  /\ githubClient (callbackHandler sample_config (query "code" "abc123") s).2
     = Some {| AccessToken := "tok_1" |}.
Proof. split; reflexivity. Qed.

(** C8.  A callback whose query has no [code] parameter answers with the
    client error [Code not found] (400) and nothing else happens: the
    session, the provider and the list of outbound calls are unchanged, so no
    exchange was attempted and no client handle written. *)
Theorem callback_missing_code
    {R : Type} `{Provider R} (cfg : Config) (r : HttpRequest) (s : State R) :
  Query r !! "code" = None ->
  callbackHandler cfg r s =
    (Ok tt, {| githubClient := githubClient s;
               w := w s ++ [HttpError "Code not found" StatusBadRequest];
               remote := remote s;
               calls := calls s |})
  /\ githubClient (callbackHandler cfg r s).2 = githubClient s
  /\ calls (callbackHandler cfg r s).2 = calls s
  /\ remote (callbackHandler cfg r s).2 = remote s.
Proof.
  intros Hq.
  assert (callbackHandler cfg r s =
    (Ok tt, {| githubClient := githubClient s;
               w := w s ++ [HttpError "Code not found" StatusBadRequest];
               remote := remote s;
               calls := calls s |})) as ->.
  { unfold callbackHandler, Values_Get. rewrite Hq.
    destruct (decide ("" = "")) as [_|Hne]; [reflexivity | by destruct Hne]. }
  repeat split.
Qed.

Lemma callback_missing_code_witness :
  callbackHandler sample_config bare_request
    (start (Some sample_client) sample_hosting)
  = (Ok tt, {| githubClient := Some sample_client;
               w := [HttpError "Code not found" 400];
               remote := sample_hosting;
               calls := [] |}).
Proof.
  exact (proj1 (callback_missing_code sample_config bare_request
                  (start (Some sample_client) sample_hosting) eq_refl)).
Defined.

(** ** Logout *)

(** C9.  Logout clears the session whatever it was and returns; on a session
    that is already cleared it returns just the same and leaves it cleared;
    a second logout ends in the session state of the first.  The provider is
    not called. *)
Theorem logout_clears_and_is_idempotent
    {R : Type} `{Provider R} (r r' : HttpRequest) (s : State R) :
  let s1 := (logoutHandler r s).2 in
  let s2 := (logoutHandler r' s1).2 in
  (logoutHandler r s).1 = Ok tt
  /\ githubClient s1 = None
  /\ not_nil (githubClient s1) = false
  /\ (logoutHandler r' s1).1 = Ok tt
  /\ githubClient s2 = githubClient s1
  /\ remote s2 = remote s /\ calls s2 = calls s
  /\ w s1 = w s ++ [Redirect "/" StatusFound].
Proof. repeat split. Qed.

(** ** Listing a page *)

Section Listing.
Context {R : Type} `{Provider R}.

Lemma repo_names_run (repos : list Repository) (acc : list string)
    (s : State R) :
  repo_names repos acc s =
  match mapM FullName repos with
  | Some names => (Ok (acc ++ names), s)
  | None => (Panic NilPointerDereference, s)
  end.
Proof.
  revert acc. induction repos as [|repo rest IH]; intros acc; simpl.
  - by rewrite app_nil_r.
  - destruct (FullName repo) as [name|]; simpl; [|reflexivity].
    rewrite IH. destruct (mapM FullName rest) as [names|]; simpl;
      [|reflexivity].
    by rewrite <- app_assoc.
Qed.


(** A listing that succeeds, with a client in place. *)
Lemma homeHandler_run (r : HttpRequest) (c : Client) (s : State R)
    (repos : list Repository) (resp : Response) (r' : R)
    (names : list string) :
  githubClient s = Some c ->
  Repositories_List c {| PerPage := 10; Page := page_of r |} (remote s)
    = (inr (repos, resp), r') ->
  mapM FullName repos = Some names ->
  homeHandler r s =
  (Ok tt,
   {| githubClient := Some c;
      w := w s ++ [Execute (page_data names resp (Some c))];
      remote := r';
      calls := calls s
               ++ [CallList c {| PerPage := 10; Page := page_of r |}] |}).
Proof.
  intros Hc Hlist Hnames. unfold homeHandler. run.
  rewrite Hc. simpl. rewrite Hc. rewrite Hlist. simpl.
  rewrite repo_names_run, Hnames. simpl. rewrite Hc. reflexivity.
Qed.

(** The first outbound call of a listing carries the page of the request
    as it was scanned. *)
Lemma homeHandler_calls (r : HttpRequest) (c : Client) (s : State R) :
  githubClient s = Some c ->
  calls (homeHandler r s).2 =
  calls s ++ [CallList c {| PerPage := 10; Page := page_of r |}].
Proof.
  intros Hc. unfold homeHandler. run. rewrite Hc. simpl. rewrite Hc.
  destruct (Repositories_List c _ (remote s)) as [[err|[repos resp]] r'];
    simpl; [reflexivity|].
  rewrite repo_names_run.
  destruct (mapM FullName repos); reflexivity.
Qed.

(** A page parameter that scans is used as it is, whatever its sign. *)
Lemma page_of_scanned (r : HttpRequest) (n : Z) :
  fmt_Sscanf_d (Values_Get (Query r) "page") = Some n -> page_of r = n.
Proof.
  intros Hscan. unfold page_of.
  destruct (decide (Values_Get (Query r) "page" = "")) as [Heq|_].
  - rewrite Heq in Hscan. discriminate.
  - by rewrite Hscan.
Qed.
End Listing.

(** The scanner on some page parameters: text after the digits is left
    unread, so [12abc] is 12 and [2_0] is 2; a no-break space (bytes 194,
    160) before the digits is skipped like a blank; a newline, a lone sign
    and a value past 64 bits do not scan. *)
Example fmt_Sscanf_d_samples :
  map fmt_Sscanf_d
    ["12abc"; "2_0"; " +7"; "007"; "-0";
     String (ascii_of_nat 194) (String (ascii_of_nat 160) "7");
     String (ascii_of_nat 10) "7"; "-"; "x1"; "9223372036854775808"]
  = [Some 12; Some 2; Some 7; Some 7; Some 0; Some 7; None; None; None; None].
Proof. reflexivity. Qed.







(** C7 (as amended).  On a listed page [hasPrev] is false exactly when the
    provider's previous-page number is at most 0, and [hasNext] is false
    exactly when its next-page number is at most 0; for the numbers the
    provider's contract allows (none below 0) that is exactly when the
    number is 0. *)
Theorem page_links
    {R : Type} `{Provider R} (r : HttpRequest) (c : Client) (s : State R)
    (repos : list Repository) (resp : Response) (r' : R)
    (names : list string) :
  githubClient s = Some c ->
  Repositories_List c {| PerPage := 10; Page := page_of r |} (remote s)
    = (inr (repos, resp), r') ->
  mapM FullName repos = Some names ->
  exists data,
    w (homeHandler r s).2 = w s ++ [Execute data]
    /\ (HasPrev data = false <-> PrevPage resp <= 0)
    /\ (HasNext data = false <-> NextPage resp <= 0)
    /\ (0 <= PrevPage resp -> (HasPrev data = false <-> PrevPage resp = 0))
    /\ (0 <= NextPage resp -> (HasNext data = false <-> NextPage resp = 0))
    /\ PrevPageNo data = PrevPage resp
    /\ NextPageNo data = NextPage resp.
Proof.
  intros Hc Hlist Hnames.
  exists (page_data names resp (Some c)).
  rewrite (homeHandler_run _ _ _ _ _ _ _ Hc Hlist Hnames). simpl.
  repeat split; try lia;
    rewrite ?Z.gtb_ltb, ?Z.ltb_ge, ?Z.ltb_nlt in *; lia.
Qed.

(** The scenario of page 3: the provider reports the previous page 2 and no
    next page. *)
Lemma page_links_witness :
  exists data,
    w (homeHandler (query "page" "3")
         (start (Some sample_client) sample_hosting)).2 = [Execute data]
    /\ PrevPageNo data = 2 /\ NextPageNo data = 0
    /\ HasPrev data = true /\ HasNext data = false.
Proof.
  destruct (page_links (query "page" "3") sample_client
              (start (Some sample_client) sample_hosting)
              [ {| FullName := Some "alice/repoA" |};
                {| FullName := Some "bob/repoB" |} ]
              {| PrevPage := 2; NextPage := 0 |} sample_hosting
              ["alice/repoA"; "bob/repoB"])
    as (data & Hw & Hprev & Hnext & _ & _ & Hp & Hn);
    [reflexivity | vm_compute; reflexivity | reflexivity |].
  exists data. simpl in *. repeat split; try assumption.
  - destruct (HasPrev data); [reflexivity|].
    exfalso. apply proj1 in Hprev. specialize (Hprev eq_refl). lia.
  - apply Hnext. lia.
Defined.

(** C7 as stated fails on a previous-page number below 0: [hasPrev] is
    false although the number is not 0. *)
Lemma negative_page_number_has_no_link :
  HasPrev (page_data [] {| PrevPage := -1; NextPage := 0 |}
             (Some sample_client)) = false
  /\ ~ (forall names resp c,
          HasPrev (page_data names resp c) = false <-> PrevPage resp = 0).
Proof.
  split; [reflexivity|]. intros Hall.
  specialize (Hall [] {| PrevPage := -1; NextPage := 0 |} None).
  simpl in Hall. apply proj1 in Hall. specialize (Hall eq_refl).
  discriminate.
Qed.

(** ** Bulk deletion *)

Section Deleting.
Context {R : Type} `{Provider R}.

(** The owner and name the loop takes from an identifier that has a
    separator. *)
Definition owner_of (repo : string) : string := first_segment repo "/".

Definition name_of (repo : string) : string :=
  match cut repo "/" with
  | Some (_, after) => first_segment after "/"
  | None => ""
  end.

Definition has_separator (repo : string) : Prop := cut repo "/" <> None.

(** The outcomes of deleting [repos] one after the other, the provider
    moving on after each call. *)
Fixpoint outcomes (c : Client) (repos : list string) (r : R)
  : list DeleteResult * R :=
  match repos with
  | [] => ([], r)
  | repo :: rest =>
      let answer := Repositories_Delete c (owner_of repo) (name_of repo) r in
      let later := outcomes c rest answer.2 in
      (classify answer.1 :: later.1, later.2)
  end.

Lemma outcomes_length (c : Client) (repos : list string) (r : R) :
  length (outcomes c repos r).1 = length repos.
Proof.
  revert r. induction repos as [|repo rest IH]; intros r; simpl;
    [reflexivity | by rewrite IH].
Qed.

Definition lines (repos : list string) (ds : list DeleteResult)
  : list Sent :=
  zip_with (fun repo d => Fprintf (render repo d)) repos ds.

Definition delete_calls (c : Client) (repos : list string) : list Call :=
  map (fun repo => CallDelete c (owner_of repo) (name_of repo)) repos.

(** With a client in place and a separator in every identifier the loop
    runs to its end: one call and one line for each identifier, in the
    order of the input, whatever the outcomes. *)
Lemma delete_loop_run (c : Client) (repos : list string) (s : State R) :
  githubClient s = Some c ->
  Forall has_separator repos ->
  delete_loop repos s =
  (Ok tt,
   {| githubClient := Some c;
      w := w s ++ lines repos (outcomes c repos (remote s)).1;
      remote := (outcomes c repos (remote s)).2;
      calls := calls s ++ delete_calls c repos |}).
Proof.
  intros Hc Hall. revert s Hc.
  induction Hall as [|repo rest Hsep _ IH]; intros s Hc.
  - simpl. rewrite !app_nil_r. destruct s; simpl in *. by rewrite Hc.
  - unfold has_separator in Hsep.
    destruct (cut repo "/") as [[before after]|] eqn:Hcut; [|done].
    assert (owner_of repo = before) as Howner
      by (unfold owner_of, first_segment; by rewrite Hcut).
    assert (name_of repo = first_segment after "/") as Hname
      by (unfold name_of; by rewrite Hcut).
    simpl. unfold mbind, M_bind, bind.
    rewrite (delete_one_run _ _ _ _ _ Hc Hcut). simpl.
    rewrite IH by reflexivity. simpl.
    rewrite Howner, Hname, <- !app_assoc. reflexivity.
Qed.

Lemma deleteHandler_run (r : HttpRequest) (c : Client) (s : State R) :
  let repos := Values_index (Form r) "repos" in
  githubClient s = Some c ->
  Forall has_separator repos ->
  deleteHandler r s =
  (Ok tt,
   {| githubClient := Some c;
      w := w s ++ lines repos (outcomes c repos (remote s)).1
           ++ [Fprintf "<a href='/'>Go Back</a>"];
      remote := (outcomes c repos (remote s)).2;
      calls := calls s ++ delete_calls c repos |}).
Proof.
  intros repos Hc Hall. unfold deleteHandler. fold repos.
  unfold mbind, M_bind, bind. rewrite (delete_loop_run _ _ _ Hc Hall).
  unfold send. simpl. by rewrite <- app_assoc.
Qed.
End Deleting.

(** The scenario of a denied and a deleted repository. *)
Example delete_scenario :
  let s := start (Some sample_client) sample_hosting in
  (outcomes sample_client ["alice/repoA"; "bob/repoB"] sample_hosting).1
  = [Forbidden; Deleted]
  /\ w (deleteHandler (selection ["alice/repoA"; "bob/repoB"]) s).2
     = lines ["alice/repoA"; "bob/repoB"] [Forbidden; Deleted]
       ++ [Fprintf "<a href='/'>Go Back</a>"].
Proof. split; reflexivity. Qed.

(** C4 fails on the code.  With a client in place and the selection
    [alice/repoA], [noslash], [bob/repoB] the loop reports the first
    identifier, then panics on [parts[1]] of the second: the handler is left
    with one line for three identifiers, [bob/repoB] is never attempted and
    the closing link is not written. *)
Theorem delete_stops_at_missing_separator :
  let s := start (Some sample_client) sample_hosting in
  deleteHandler (selection ["alice/repoA"; "noslash"; "bob/repoB"]) s
  = (Panic (IndexOutOfRange 1 1),
     {| githubClient := Some sample_client;
        w := [Fprintf (render "alice/repoA" Forbidden)];
        remote := sample_hosting;
        calls := [CallDelete sample_client "alice" "repoA"] |}).
Proof. reflexivity. Qed.

(** C5 (as amended).  In a round of the loop that reaches the provider, the
    line written is the one of the branch the provider's answer selects: an
    error that is an [*github.ErrorResponse] with status 403 selects
    [Forbidden], whose line names the missing admin rights; any other error
    selects [OtherError] with the text of the error, and that includes a
    response with status 403 that arrives as another type of error, such as
    a rate-limit error; no error selects [Deleted]. *)
Theorem delete_outcome_classified
    {R : Type} `{Provider R} (repo before after : string) (c : Client)
    (s : State R) :
  githubClient s = Some c ->
  cut repo "/" = Some (before, after) ->
  let answer :=
    (Repositories_Delete c before (first_segment after "/") (remote s)).1 in
  w (delete_one repo s).2 = w s ++ [Fprintf (render repo (classify answer))]
  /\ (forall text, answer = Some (ErrorResponse 403 text) ->
       classify answer = Forbidden)
  /\ (forall e, answer = Some e ->
       (forall text, e <> ErrorResponse 403 text) ->
       classify answer = OtherError (Error e))
  /\ (forall text, answer = Some (RateLimitError text) ->
       HTTPStatus (RateLimitError text) = Some 403
       /\ classify answer = OtherError text)
  /\ (answer = None -> classify answer = Deleted)
  /\ render repo Forbidden =
     "Failed to delete " +:+ repo
     +:+ ": You must have admin rights to delete this repository.<br>"
  /\ (forall message, render repo (OtherError message) =
       "Failed to delete " +:+ repo +:+ ": " +:+ message +:+ "<br>")
  /\ render repo Deleted = "Deleted: " +:+ repo +:+ "<br>".
Proof.
  intros Hc Hcut answer.
  rewrite (delete_one_run _ _ _ _ _ Hc Hcut). simpl.
  split; [reflexivity|]. split; [by intros text ->|].
  split; [|split; [by intros text ->|split; [by intros ->|done]]].
  intros e -> Hne. destruct e as [code text|limit|plain]; simpl;
    [|reflexivity|reflexivity].
  destruct (decide (code = 403)) as [->|Hcode].
  - by destruct (Hne text).
  - destruct code as [|q|q]; try reflexivity.
    repeat (destruct q as [q|q|]; try reflexivity). by destruct Hcode.
Qed.

Lemma delete_outcome_classified_witness :
  w (delete_one "alice/repoA" (start (Some sample_client) sample_hosting)).2
  = [Fprintf "Failed to delete alice/repoA: You must have admin rights to delete this repository.<br>"].
Proof.
  destruct (delete_outcome_classified "alice/repoA" "alice" "repoA"
              sample_client (start (Some sample_client) sample_hosting)
              eq_refl eq_refl) as (Hw & Hforbidden & _).
  rewrite Hw.
  rewrite (Hforbidden "403 Must have admin rights to Repository." eq_refl).
  reflexivity.
Defined.

(** C5 as stated fails on a response with status 403 that the client
    library hands over as a [*github.RateLimitError]: the type assertion of
    line 161 fails, and the line written is the generic one with the text of
    the error, not the one about admin rights. *)
Lemma rate_limited_403_is_other_error :
  let s := scripted_start (Some sample_client) rate_limited in
  (Repositories_Delete sample_client "alice" "repoA" (remote s)).1
  = Some (RateLimitError "403 API rate limit exceeded")
  /\ HTTPStatus (RateLimitError "403 API rate limit exceeded") = Some 403
  /\ classify (Some (RateLimitError "403 API rate limit exceeded"))
     = OtherError "403 API rate limit exceeded"
  /\ classify (Some (RateLimitError "403 API rate limit exceeded"))
     <> Forbidden
  /\ w (delete_one "alice/repoA" s).2
     = [Fprintf "Failed to delete alice/repoA: 403 API rate limit exceeded<br>"].
Proof. simpl. repeat split. discriminate. Qed.

(** C10 (as amended).  The delete handler does not look at the session
    before it starts: with the session cleared and a first selected
    identifier that has a separator, it panics on the nil client handle in
    the first round, having sent nothing and called nothing. *)
Theorem delete_without_session_dereferences_nil
    {R : Type} `{Provider R} (r : HttpRequest) (repo : string)
    (rest : list string) (before after : string) (s : State R) :
  githubClient s = None ->
  Values_index (Form r) "repos" = repo :: rest ->
  cut repo "/" = Some (before, after) ->
  deleteHandler r s = (Panic NilPointerDereference, s).
Proof.
  intros Hc Hrepos Hcut. unfold deleteHandler. rewrite Hrepos. simpl.
  unfold delete_one. unfold mbind, M_bind, bind.
  rewrite (split_identifier_cut _ _ _ _ Hcut).
  unfold deref_githubClient. rewrite Hc. reflexivity.
Qed.

Lemma delete_without_session_dereferences_nil_witness :
  deleteHandler (selection ["alice/repoA"; "bob/repoB"])
    (start None sample_hosting)
  = (Panic NilPointerDereference, start None sample_hosting).
Proof.
  apply (delete_without_session_dereferences_nil
           (selection ["alice/repoA"; "bob/repoB"]) "alice/repoA"
           ["bob/repoB"] "alice" "repoA");
    reflexivity.
Defined.

(** C10 as stated fails when the first selected identifier has no
    separator: the panic is the index out of range on [parts[1]], one line
    before the client handle is touched. *)
Lemma delete_without_session_index_panic :
  deleteHandler (selection ["noslash"]) (start None sample_hosting)
  = (Panic (IndexOutOfRange 1 1), start None sample_hosting)
  /\ (deleteHandler (selection ["noslash"]) (start None sample_hosting)).1
     <> Panic NilPointerDereference.
Proof. split; [reflexivity | vm_compute; discriminate]. Qed.

(** ** Start-up *)

Definition registered : list (string * Route) :=
  [("/", Home); ("/login", Login); ("/callback", Callback);
   ("/delete", Delete); ("/logout", Logout)].

(** C6 (as amended).  [main] does not look at the credentials: whatever the
    environment holds, once the address is bound the process serves the five
    patterns, and with [OAUTH_CLIENT_ID] unset the login request is answered
    by a redirect whose [client_id] is empty. *)
Theorem main_serves_whatever_the_credentials
    {R : Type} `{Provider R} (env : gmap string string) (r : HttpRequest)
    (s : State R) :
  main env None
  = Serving (load_config env) ["Starting server on :8989"] ":8989" registered
  /\ (env !! "OAUTH_CLIENT_ID" = None ->
      exists m,
        serve (main env None) "/login" r = Some m
        /\ m s =
           (Ok tt,
            {| githubClient := githubClient s;
               w := w s ++ [Redirect
                 "https://github.com/login/oauth/authorize?client_id=&scope=repo,delete_repo&redirect_uri=http://localhost:8989/callback"
                 StatusFound];
               remote := remote s;
               calls := calls s |})).
Proof.
  split; [reflexivity|]. intros Hid.
  exists (loginHandler (load_config env) r). split; [reflexivity|].
  unfold loginHandler, load_config, os_Getenv. simpl. rewrite Hid.
  reflexivity.
Qed.

Lemma main_serves_whatever_the_credentials_witness :
  exists m : M Hosting unit,
    serve (main ∅ None) "/login" bare_request = Some m
    /\ w (m (start None sample_hosting)).2 =
       [Redirect
          "https://github.com/login/oauth/authorize?client_id=&scope=repo,delete_repo&redirect_uri=http://localhost:8989/callback"
          302].
Proof.
  destruct (main_serves_whatever_the_credentials ∅ bare_request
              (start None sample_hosting)) as [_ Hlogin].
  destruct (Hlogin eq_refl) as (m & Hserve & Hrun).
  exists m. split; [exact Hserve | by rewrite Hrun].
Defined.

(** C6 as stated fails with an empty environment: no client ID is set and
    the process is serving. *)
Lemma main_starts_without_client_id :
  os_Getenv ∅ "OAUTH_CLIENT_ID" = ""
  /\ main ∅ None
     = Serving {| clientID := ""; clientSecret := "";
                  redirectURI := "http://localhost:8989/callback" |}
         ["Starting server on :8989"] ":8989" registered
  /\ forall out msg, main ∅ None <> Exited out msg.
Proof. repeat split. intros out msg. discriminate. Qed.


(** * Further properties of the handlers *)

(** ** The home page *)

Lemma mapM_FullName_named (names : list string) :
  mapM FullName (map (fun n => {| FullName := Some n |}) names) = Some names.
Proof.
  induction names as [|n names IH]; simpl; [reflexivity|].
  rewrite IH. reflexivity.
Qed.

Lemma mapM_FullName_nil (repos : list Repository) :
  (exists repo, In repo repos /\ FullName repo = None) ->
  mapM FullName repos = None.
Proof.
  intros (repo & Hin & Hnil).
  destruct (mapM FullName repos) as [names|] eqn:Hm; [|reflexivity].
  assert (is_Some (mapM FullName repos)) as Hsome by (rewrite Hm; eauto).
  apply mapM_is_Some in Hsome. rewrite Forall_forall in Hsome.
  apply list_elem_of_In in Hin. specialize (Hsome repo Hin).
  simpl in Hsome. rewrite Hnil in Hsome. by destruct Hsome.
Qed.

(** X1.  Without a session the home page is not built: the handler answers
    with a redirect to [/login] and the provider is not called. *)
Theorem home_without_session_redirects
    {R : Type} `{Provider R} (r : HttpRequest) (s : State R) :
  githubClient s = None ->
  homeHandler r s =
  (Ok tt, {| githubClient := None;
             w := w s ++ [Redirect "/login" StatusFound];
             remote := remote s;
             calls := calls s |}).
Proof.
  intros Hc. unfold homeHandler. run. rewrite Hc. simpl. rewrite Hc.
  reflexivity.
Qed.

Lemma home_without_session_redirects_witness :
  homeHandler (query "page" "2") (start None sample_hosting)
  = (Ok tt, {| githubClient := None;
               w := [Redirect "/login" 302];
               remote := sample_hosting;
               calls := [] |}).
Proof.
  exact (home_without_session_redirects (query "page" "2")
           (start None sample_hosting) eq_refl).
Defined.

(** X2.  When the provider answers the listing with an error, the handler
    answers with the text of that error and status 500, and the page
    template is not executed; the session is kept. *)
Theorem home_provider_error
    {R : Type} `{Provider R} (r : HttpRequest) (c : Client) (s : State R)
    (err : error) (r' : R) :
  githubClient s = Some c ->
  Repositories_List c {| PerPage := 10; Page := page_of r |} (remote s)
    = (inl err, r') ->
  homeHandler r s =
  (Ok tt,
   {| githubClient := Some c;
      w := w s ++ [HttpError (Error err) StatusInternalServerError];
      remote := r';
      calls := calls s
               ++ [CallList c {| PerPage := 10; Page := page_of r |}] |}).
Proof.
  intros Hc Hlist. unfold homeHandler. run.
  rewrite Hc. simpl. rewrite Hc, Hlist. simpl. rewrite Hc. reflexivity.
Qed.

Lemma home_provider_error_witness :
  w (homeHandler bare_request (scripted_start (Some sample_client) outage)).2
  = [HttpError "503 Service Unavailable" 500].
Proof.
  rewrite (home_provider_error bare_request sample_client
             (scripted_start (Some sample_client) outage)
             (ErrorResponse 503 "503 Service Unavailable") outage);
    reflexivity.
Defined.

(** X3.  A listing that succeeds shows the full names of the repositories
    the provider returned, all of them and in the provider's order, marked
    as logged in, after one call for a page of 10. *)
Theorem home_lists_names_in_order
    {R : Type} `{Provider R} (r : HttpRequest) (c : Client) (s : State R)
    (names : list string) (resp : Response) (r' : R) :
  githubClient s = Some c ->
  Repositories_List c {| PerPage := 10; Page := page_of r |} (remote s)
    = (inr (map (fun n => {| FullName := Some n |}) names, resp), r') ->
  exists data,
    homeHandler r s =
    (Ok tt,
     {| githubClient := Some c;
        w := w s ++ [Execute data];
        remote := r';
        calls := calls s
                 ++ [CallList c {| PerPage := 10; Page := page_of r |}] |})
    /\ Repos data = names
    /\ IsLoggedIn data = true.
Proof.
  intros Hc Hlist. exists (page_data names resp (Some c)).
  split; [|split; reflexivity].
  exact (homeHandler_run r c s _ resp r' names Hc Hlist
           (mapM_FullName_named names)).
Qed.

Lemma home_lists_names_in_order_witness :
  exists data,
    w (homeHandler bare_request
         (start (Some sample_client) sample_hosting)).2 = [Execute data]
    /\ Repos data = ["alice/repoA"; "bob/repoB"].
Proof.
  destruct (home_lists_names_in_order bare_request sample_client
              (start (Some sample_client) sample_hosting)
              ["alice/repoA"; "bob/repoB"]
              {| PrevPage := 0; NextPage := 0 |} sample_hosting)
    as (data & Hrun & Hrepos & _);
    [reflexivity | vm_compute; reflexivity |].
  exists data. rewrite Hrun. split; [reflexivity | exact Hrepos].
Defined.

(** X4.  A repository whose [FullName] is nil in the provider's answer makes
    the handler panic on [*repo.FullName]: the call has been made, nothing
    is sent. *)
Theorem home_nil_full_name_panics
    {R : Type} `{Provider R} (r : HttpRequest) (c : Client) (s : State R)
    (repos : list Repository) (resp : Response) (r' : R) :
  githubClient s = Some c ->
  Repositories_List c {| PerPage := 10; Page := page_of r |} (remote s)
    = (inr (repos, resp), r') ->
  (exists repo, In repo repos /\ FullName repo = None) ->
  homeHandler r s =
  (Panic NilPointerDereference,
   {| githubClient := Some c;
      w := w s;
      remote := r';
      calls := calls s
               ++ [CallList c {| PerPage := 10; Page := page_of r |}] |}).
Proof.
  intros Hc Hlist Hnil. unfold homeHandler. run.
  rewrite Hc. simpl. rewrite Hc, Hlist. simpl.
  rewrite repo_names_run, (mapM_FullName_nil _ Hnil). simpl.
  rewrite Hc. reflexivity.
Qed.

Lemma home_nil_full_name_panics_witness :
  (homeHandler bare_request
     (scripted_start (Some sample_client) nameless)).1
  = Panic NilPointerDereference.
Proof.
  rewrite (home_nil_full_name_panics bare_request sample_client
             (scripted_start (Some sample_client) nameless)
             [ {| FullName := Some "alice/repoA" |}; {| FullName := None |} ]
             {| PrevPage := 0; NextPage := 2 |} nameless);
    try reflexivity.
  exists {| FullName := None |}. split; [right; left|]; reflexivity.
Defined.

(** X5.  Whatever the request, the session and the provider's answer, a
    page the handler executes is marked as logged in and shows a link
    exactly for a page number above 0: the login link of the template and a
    link to a page at or below 0 never come out of this handler. *)
Theorem home_page_links_are_positive
    {R : Type} `{Provider R} (r : HttpRequest) (s : State R)
    (data : PageData) :
  In (Execute data) (w (homeHandler r s).2) ->
  ~ In (Execute data) (w s) ->
  IsLoggedIn data = true
  /\ (HasPrev data = true <-> 0 < PrevPageNo data)
  /\ (HasNext data = true <-> 0 < NextPageNo data).
Proof.
  intros Hin Hold. unfold homeHandler in Hin. revert Hin. run.
  destruct (githubClient s) as [c|] eqn:Hc; simpl.
  - rewrite Hc.
    destruct (Repositories_List c _ (remote s)) as [[err|[repos resp]] r'];
      simpl.
    + intros Hin. apply in_app_or in Hin as [Hin|[Hin|[]]];
        [contradiction | discriminate].
    + rewrite repo_names_run.
      destruct (mapM FullName repos) as [names|]; simpl;
        [|intros Hin; contradiction].
      rewrite Hc. simpl. intros Hin.
      apply in_app_or in Hin as [Hin|[Hin|[]]]; [contradiction|].
      injection Hin as <-. simpl.
      split; [reflexivity|]. rewrite !Z.gtb_ltb, !Z.ltb_lt. tauto.
  - intros Hin. apply in_app_or in Hin as [Hin|[Hin|[]]];
      [contradiction | discriminate].
Qed.

Lemma home_page_links_are_positive_witness :
  let data := page_data ["alice/repoA"; "bob/repoB"]
                {| PrevPage := 2; NextPage := 0 |} (Some sample_client) in
  IsLoggedIn data = true
  /\ (HasPrev data = true <-> 0 < PrevPageNo data)
  /\ (HasNext data = true <-> 0 < NextPageNo data).
Proof.
  apply (home_page_links_are_positive (query "page" "3")
           (start (Some sample_client) sample_hosting)).
  - vm_compute. left. reflexivity.
  - simpl. tauto.
Defined.

(** ** The page number *)

Lemma fmt_Sscanf_d_range (p : string) (n : Z) :
  fmt_Sscanf_d p = Some n -> minInt64 <= n <= maxInt64.
Proof.
  unfold fmt_Sscanf_d.
  destruct (skip_space p) as [|c rest]; [discriminate|].
  destruct (scanNumber _) as [|d tok]; [discriminate|].
  destruct (parse_digits (d :: tok) 0) as [m|]; [|discriminate].
  destruct (_ && _) eqn:Hrange; [|discriminate].
  intros [= <-]. apply andb_true_iff in Hrange as [Hlo Hhi].
  apply Z.leb_le in Hlo, Hhi. lia.
Qed.

Lemma page_of_range (r : HttpRequest) : minInt64 <= page_of r <= maxInt64.
Proof.
  unfold page_of.
  destruct (decide _) as [_|_]; [unfold minInt64, maxInt64; lia|].
  destruct (fmt_Sscanf_d _) as [n|] eqn:Hscan.
  - by apply fmt_Sscanf_d_range in Hscan.
  - unfold minInt64, maxInt64; lia.
Qed.

(** X6.  The page number the handler works with always fits a 64-bit
    integer: a parameter too large or too small for one does not scan and
    leaves the page at 1. *)
Theorem page_of_fits_int64 (r : HttpRequest) (p : string) :
  Values_Get (Query r) "page" = p ->
  minInt64 <= page_of r <= maxInt64
  /\ (fmt_Sscanf_d p = None -> page_of r = 1).
Proof.
  intros Hp. split; [apply page_of_range|].
  intros Hscan. unfold page_of. rewrite Hp, Hscan. by destruct (decide _).
Qed.

Lemma page_of_fits_int64_witness :
  page_of (query "page" "9223372036854775808") = 1.
Proof.
  apply (page_of_fits_int64 (query "page" "9223372036854775808")
           "9223372036854775808"); reflexivity.
Defined.

(** X18.  With a client in place every home request makes exactly one
    call, a listing of 10 repositories per page under that client, for a
    page number that fits a 64-bit integer; this holds whatever the provider
    answers. *)
Theorem home_asks_for_ten_per_page
    {R : Type} `{Provider R} (r : HttpRequest) (c : Client) (s : State R) :
  githubClient s = Some c ->
  exists page,
    calls (homeHandler r s).2
    = calls s ++ [CallList c {| PerPage := 10; Page := page |}]
    /\ minInt64 <= page <= maxInt64.
Proof.
  intros Hc. exists (page_of r).
  split; [by apply homeHandler_calls | apply page_of_range].
Qed.

Lemma home_asks_for_ten_per_page_witness :
  exists page,
    calls (homeHandler (query "page" "7")
             (scripted_start (Some sample_client) outage)).2
    = [CallList sample_client {| PerPage := 10; Page := page |}].
Proof.
  destruct (home_asks_for_ten_per_page (query "page" "7") sample_client
              (scripted_start (Some sample_client) outage) eq_refl)
    as (page & Hcalls & _).
  exists page. exact Hcalls.
Defined.

(** How the page template prints an integer between its link's
    [/?page=] and the closing quote: in decimal, digits only, the last digit
    produced first. *)
Definition digit_char (d : Z) : ascii := ascii_of_nat (48 + Z.to_nat d).

Fixpoint decimal_digits (fuel : nat) (n : Z) (acc : string) : string :=
  match fuel with
  | O => acc
  | S fuel' =>
      let acc' := String (digit_char (n mod 10)) acc in
      if n <? 10 then acc' else decimal_digits fuel' (n / 10) acc'
  end.

(** A non-negative 64-bit integer has at most 19 digits. *)
Definition decimal (n : Z) : string := decimal_digits 19 n "".

(** The value the scanner reaches on [s] from the value [a] so far. *)
Definition scan_value (s : string) (a : Z) : option Z :=
  parse_digits (scanNumber s) a.

Lemma digit_char_spec (d : Z) :
  0 <= d < 10 ->
  digit_of (digit_char d) = Some d
  /\ (forall s, skip_space (String (digit_char d) s)
                = String (digit_char d) s)
  /\ Ascii.eqb (digit_char d) "-" = false
  /\ Ascii.eqb (digit_char d) "+" = false.
Proof.
  intros Hd.
  assert (d = 0 \/ d = 1 \/ d = 2 \/ d = 3 \/ d = 4 \/ d = 5 \/ d = 6
          \/ d = 7 \/ d = 8 \/ d = 9) as Hcases by lia.
  repeat (destruct Hcases as [->|Hcases]; [repeat split|]).
  subst d. repeat split.
Qed.

Lemma scanNumber_digit (d : Z) (s : string) :
  0 <= d < 10 ->
  scanNumber (String (digit_char d) s) = digit_char d :: scanNumber s.
Proof.
  intros Hd. destruct (digit_char_spec d Hd) as (Hdig & _).
  cbn [scanNumber]. unfold is_digit. by rewrite Hdig.
Qed.

Lemma scan_value_digit (d : Z) (s : string) (a : Z) :
  0 <= d < 10 ->
  scan_value (String (digit_char d) s) a = scan_value s (10 * a + d).
Proof.
  intros Hd. unfold scan_value. rewrite (scanNumber_digit _ _ Hd).
  cbn [parse_digits]. destruct (digit_char_spec d Hd) as (-> & _).
  reflexivity.
Qed.

Lemma scan_value_decimal_digits (fuel : nat) (n : Z) (acc : string) :
  0 <= n < 10 ^ Z.of_nat fuel ->
  scan_value (decimal_digits fuel n acc) 0 = scan_value acc n.
Proof.
  revert n acc. induction fuel as [|fuel IH]; intros n acc Hn.
  - change (10 ^ Z.of_nat 0) with 1 in Hn.
    assert (n = 0) as -> by lia. reflexivity.
  - cbn [decimal_digits]. destruct (n <? 10) eqn:Hlt.
    + apply Z.ltb_lt in Hlt. rewrite Z.mod_small by lia.
      rewrite scan_value_digit by lia. f_equal.
    + apply Z.ltb_ge in Hlt.
      rewrite IH.
      * rewrite scan_value_digit by (apply Z.mod_pos_bound; lia).
        f_equal. rewrite (Z.div_mod n 10) at 3 by lia. lia.
      * rewrite Nat2Z.inj_succ, Z.pow_succ_r in Hn by lia.
        split; [apply Z.div_pos; lia|].
        apply Z.div_lt_upper_bound; lia.
Qed.

Lemma decimal_digits_head (fuel : nat) (n : Z) (acc : string) :
  0 <= n ->
  exists d rest,
    0 <= d < 10 /\ decimal_digits (S fuel) n acc = String (digit_char d) rest.
Proof.
  revert n acc. induction fuel as [|fuel IH]; intros n acc Hn.
  - exists (n mod 10), acc. split; [apply Z.mod_pos_bound; lia|].
    simpl. by destruct (n <? 10).
  - change (decimal_digits (S (S fuel)) n acc)
      with (let acc' := String (digit_char (n mod 10)) acc in
            if n <? 10 then acc' else decimal_digits (S fuel) (n / 10) acc').
    simpl. destruct (n <? 10).
    + exists (n mod 10), acc. split; [apply Z.mod_pos_bound; lia|].
      reflexivity.
    + apply IH. apply Z.div_pos; lia.
Qed.

Lemma decimal_digits_append (fuel : nat) (n : Z) (acc suffix : string) :
  decimal_digits fuel n acc +:+ suffix = decimal_digits fuel n (acc +:+ suffix).
Proof.
  revert n acc. induction fuel as [|fuel IH]; intros n acc; simpl;
    [reflexivity|].
  destruct (n <? 10); [reflexivity|]. by rewrite IH.
Qed.

(** The text after the digits does not go on with a digit. *)
Definition ends_number (suffix : string) : Prop := scanNumber suffix = [].

(** X7.  A page link is read back as the page it names: the decimal digits
    of a page number from 0 to the largest 64-bit integer, followed by
    anything that does not go on with a digit, scan as that number, and the
    handler asks for that page. *)
Theorem page_link_round_trip (r : HttpRequest) (n : Z) (suffix : string) :
  0 <= n <= maxInt64 ->
  ends_number suffix ->
  Values_Get (Query r) "page" = decimal n +:+ suffix ->
  fmt_Sscanf_d (decimal n +:+ suffix) = Some n /\ page_of r = n.
Proof.
  intros Hn Hend Hpage.
  assert (fmt_Sscanf_d (decimal n +:+ suffix) = Some n) as Hscan.
  { unfold decimal. rewrite decimal_digits_append.
    change ("" +:+ suffix) with suffix.
    assert (0 <= n < 10 ^ Z.of_nat 19) as Hfuel
      by (unfold maxInt64 in Hn;
          change (10 ^ Z.of_nat 19) with 10000000000000000000; lia).
    pose proof (scan_value_decimal_digits 19 n suffix Hfuel) as Hvalue.
    destruct (decimal_digits_head 18 n suffix) as (d & rest & Hd & Hhead);
      [lia|].
    rewrite Hhead in Hvalue |- *.
    destruct (digit_char_spec d Hd) as (_ & Hblank & Hminus & Hplus).
    unfold fmt_Sscanf_d. rewrite Hblank, Hminus, Hplus.
    cbn [orb]. unfold scan_value in Hvalue.
    rewrite (scanNumber_digit _ _ Hd) in Hvalue |- *.
    rewrite Hvalue. unfold ends_number in Hend. rewrite Hend.
    cbn [parse_digits].
    destruct ((minInt64 <=? n) && (n <=? maxInt64)) eqn:Hrange;
      [reflexivity|].
    apply andb_false_iff in Hrange as [Hr|Hr]; apply Z.leb_gt in Hr;
      unfold minInt64, maxInt64 in *; lia. }
  split; [exact Hscan|].
  apply page_of_scanned. by rewrite Hpage.
Qed.

Lemma page_link_round_trip_witness :
  decimal 9223372036854775807 = "9223372036854775807"
  /\ page_of (query "page" "9223372036854775807&x=1") = 9223372036854775807.
Proof.
  split; [reflexivity|].
  apply (page_link_round_trip (query "page" "9223372036854775807&x=1")
           9223372036854775807 "&x=1").
  - unfold maxInt64. lia.
  - reflexivity.
  - reflexivity.
Defined.

(** ** The callback *)

Section CallbackRun.
Context {R : Type} `{Provider R}.
Variable cfg : Config.

(** A callback whose exchange gives a token. *)
Lemma callbackHandler_run (r : HttpRequest) (s : State R) (token : string)
    (result : gmap string json) (r' : R) :
  let code := Values_Get (Query r) "code" in
  code <> "" ->
  http_Do (token_request cfg code) (remote s) = (inr result, r') ->
  result !! "access_token" = Some (JString token) ->
  callbackHandler cfg r s =
  (Ok tt,
   {| githubClient := Some {| AccessToken := token |};
      w := w s ++ [Redirect "/" StatusFound];
      remote := r';
      calls := calls s ++ [CallDo (token_request cfg code)] |}).
Proof.
  intros code Hcode Hdo Htoken. unfold callbackHandler. fold code.
  destruct (decide (code = "")) as [Heq|_]; [contradiction|].
  unfold mbind at 1. unfold M_bind, bind.
  rewrite (exchange_token cfg code token result r' s Hdo Htoken).
  unfold after_exchange. rewrite Hdo. reflexivity.
Qed.

Lemma callbackHandler_no_code (r : HttpRequest) (s : State R) :
  Values_Get (Query r) "code" = "" ->
  callbackHandler cfg r s =
  (Ok tt, {| githubClient := githubClient s;
             w := w s ++ [HttpError "Code not found" StatusBadRequest];
             remote := remote s;
             calls := calls s |}).
Proof.
  intros Hcode. unfold callbackHandler. rewrite Hcode.
  destruct (decide ("" = "")) as [_|Hne]; [reflexivity | by destruct Hne].
Qed.
End CallbackRun.

(** X8.  A callback with a code, answered by a payload that has a string
    under [access_token], puts a client bound to that token in the session
    in place of whatever was there, redirects to [/], and has made one
    outbound call: the token request for that code. *)
Theorem callback_success_replaces_session
    {R : Type} `{Provider R} (cfg : Config) (r : HttpRequest) (s : State R)
    (token : string) (result : gmap string json) (r' : R) :
  Values_Get (Query r) "code" <> "" ->
  http_Do (token_request cfg (Values_Get (Query r) "code")) (remote s)
    = (inr result, r') ->
  result !! "access_token" = Some (JString token) ->
  (callbackHandler cfg r s).1 = Ok tt
  /\ githubClient (callbackHandler cfg r s).2
     = Some {| AccessToken := token |}
  /\ w (callbackHandler cfg r s).2 = w s ++ [Redirect "/" StatusFound]
  /\ calls (callbackHandler cfg r s).2
     = calls s ++ [CallDo (token_request cfg (Values_Get (Query r) "code"))]
  /\ Body (token_request cfg (Values_Get (Query r) "code"))
     = "client_id=" +:+ clientID cfg +:+ "&client_secret="
       +:+ clientSecret cfg +:+ "&code=" +:+ Values_Get (Query r) "code".
Proof.
  intros Hcode Hdo Htoken.
  rewrite (callbackHandler_run cfg r s token result r' Hcode Hdo Htoken).
  repeat split.
Qed.

Lemma callback_success_replaces_session_witness :
  githubClient
    (callbackHandler sample_config (query "code" "abc123")
       (start (Some {| AccessToken := "old" |}) sample_hosting)).2
  = Some {| AccessToken := "tok_1" |}.
Proof.
  apply (callback_success_replaces_session sample_config
           (query "code" "abc123")
           (start (Some {| AccessToken := "old" |}) sample_hosting)
           "tok_1" {[ "access_token" := JString "tok_1" ]} sample_hosting).
  - vm_compute. discriminate.
  - reflexivity.
  - reflexivity.
Defined.

(** X9.  A [code] parameter that is there but empty, as in [/callback?code=],
    is handled like a missing one: the answer is [Code not found] with
    status 400, no exchange is attempted and the session is not touched. *)
Theorem callback_empty_code
    {R : Type} `{Provider R} (cfg : Config) (r : HttpRequest)
    (values : list string) (s : State R) :
  Query r !! "code" = Some ("" :: values) ->
  callbackHandler cfg r s =
  (Ok tt, {| githubClient := githubClient s;
             w := w s ++ [HttpError "Code not found" StatusBadRequest];
             remote := remote s;
             calls := calls s |}).
Proof.
  intros Hq. apply callbackHandler_no_code.
  unfold Values_Get. by rewrite Hq.
Qed.

Lemma callback_empty_code_witness :
  callbackHandler sample_config (query "code" "")
    (start None sample_hosting)
  = (Ok tt, {| githubClient := None;
               w := [HttpError "Code not found" 400];
               remote := sample_hosting;
               calls := [] |}).
Proof.
  apply (callback_empty_code sample_config (query "code" "") []).
  reflexivity.
Defined.

(** ** More on bulk deletion *)

Lemma cut_None_iff (s : string) (sep : ascii) :
  cut s sep = None <-> ~ In sep (list_ascii_of_string s).
Proof.
  induction s as [|c s IH]; simpl.
  - split; [intros _ [] | reflexivity].
  - destruct (Ascii.eqb_spec c sep) as [->|Hne].
    + split; [discriminate | intros Hnot; exfalso; apply Hnot; by left].
    + destruct (cut s sep) as [[before after]|].
      * split; [discriminate|]. intros Hnot. exfalso.
        assert (Some (before, after) <> None) as Hsome by discriminate.
        rewrite IH in Hsome. apply Hsome. intros Hin. apply Hnot. by right.
      * split; [|reflexivity]. intros _ [Heq|Hin]; [by apply Hne|].
        by apply (proj1 IH).
Qed.

Section DeletingMore.
Context {R : Type} `{Provider R}.

Lemma delete_loop_app (pre rest : list string) (s : State R) :
  delete_loop (pre ++ rest) s =
  match delete_loop pre s with
  | (Ok _, s') => delete_loop rest s'
  | (Panic p, s') => (Panic p, s')
  | (Exit f, s') => (Exit f, s')
  end.
Proof.
  revert s. induction pre as [|repo pre IH]; intros s; [reflexivity|].
  simpl. unfold mbind, M_bind, bind.
  destruct (delete_one repo s) as [[[]|p|f] s']; [apply IH | done | done].
Qed.

Lemma delete_one_no_separator (repo : string) (s : State R) :
  cut repo "/" = None ->
  delete_one repo s = (Panic (IndexOutOfRange 1 1), s).
Proof.
  intros Hcut. unfold delete_one. unfold mbind, M_bind, bind.
  by rewrite (split_identifier_no_separator _ _ Hcut).
Qed.
End DeletingMore.

(** X10.  A delete request with nothing selected (no [repos] field, or an
    empty one) writes the closing link and nothing else: the provider is not
    called, and the handler returns whether or not there is a session. *)
Theorem delete_empty_selection
    {R : Type} `{Provider R} (r : HttpRequest) (s : State R) :
  Values_index (Form r) "repos" = [] ->
  deleteHandler r s =
  (Ok tt, {| githubClient := githubClient s;
             w := w s ++ [Fprintf "<a href='/'>Go Back</a>"];
             remote := remote s;
             calls := calls s |}).
Proof. intros Hnone. unfold deleteHandler. by rewrite Hnone. Qed.

Lemma delete_empty_selection_witness :
  deleteHandler bare_request (start None sample_hosting)
  = (Ok tt, {| githubClient := None;
               w := [Fprintf "<a href='/'>Go Back</a>"];
               remote := sample_hosting;
               calls := [] |}).
Proof.
  exact (delete_empty_selection bare_request (start None sample_hosting)
           eq_refl).
Defined.

(** X11.  With a client in place and a [/] in every selected identifier,
    the handler returns after one delete call and one line per identifier,
    both in the order of the selection, whatever the provider answered to
    each call; the closing link comes last and the session is kept. *)
Theorem delete_attempts_every_identifier
    {R : Type} `{Provider R} (r : HttpRequest) (c : Client) (s : State R) :
  githubClient s = Some c ->
  Forall has_separator (Values_index (Form r) "repos") ->
  let repos := Values_index (Form r) "repos" in
  exists results,
    length results = length repos
    /\ (deleteHandler r s).1 = Ok tt
    /\ w (deleteHandler r s).2
       = w s ++ lines repos results ++ [Fprintf "<a href='/'>Go Back</a>"]
    /\ calls (deleteHandler r s).2 = calls s ++ delete_calls c repos
    /\ githubClient (deleteHandler r s).2 = Some c.
Proof.
  intros Hc Hall repos.
  exists (outcomes c repos (remote s)).1.
  split; [apply outcomes_length|].
  rewrite (deleteHandler_run r c s Hc Hall). repeat split.
Qed.

Lemma delete_attempts_every_identifier_witness :
  calls (deleteHandler (selection ["alice/repoA"; "bob/repoB"; "carol/x"])
           (start (Some sample_client) sample_hosting)).2
  = [CallDelete sample_client "alice" "repoA";
     CallDelete sample_client "bob" "repoB";
     CallDelete sample_client "carol" "x"].
Proof.
  destruct (delete_attempts_every_identifier
              (selection ["alice/repoA"; "bob/repoB"; "carol/x"])
              sample_client (start (Some sample_client) sample_hosting))
    as (results & _ & _ & _ & Hcalls & _).
  - reflexivity.
  - repeat constructor; discriminate.
  - rewrite Hcalls. reflexivity.
Defined.

(** X12.  With a client in place, the first selected identifier that has no
    [/] ends the handler with the panic of [parts[1]]: the identifiers before
    it have had their call and their line, those after it get neither, and
    the closing link is not written. *)
Theorem delete_stops_at_first_missing_separator
    {R : Type} `{Provider R} (r : HttpRequest) (c : Client) (s : State R)
    (pre : list string) (bad : string) (post : list string) :
  githubClient s = Some c ->
  Values_index (Form r) "repos" = pre ++ bad :: post ->
  Forall has_separator pre ->
  cut bad "/" = None ->
  deleteHandler r s =
  (Panic (IndexOutOfRange 1 1),
   {| githubClient := Some c;
      w := w s ++ lines pre (outcomes c pre (remote s)).1;
      remote := (outcomes c pre (remote s)).2;
      calls := calls s ++ delete_calls c pre |}).
Proof.
  intros Hc Hrepos Hpre Hbad. unfold deleteHandler. rewrite Hrepos.
  unfold mbind, M_bind, bind.
  rewrite delete_loop_app, (delete_loop_run c pre s Hc Hpre).
  simpl. unfold mbind, M_bind, bind.
  by rewrite (delete_one_no_separator _ _ Hbad).
Qed.

Lemma delete_stops_at_first_missing_separator_witness :
  deleteHandler (selection ["bob/repoB"; "noslash"; "alice/repoA"])
    (start (Some sample_client) sample_hosting)
  = (Panic (IndexOutOfRange 1 1),
     {| githubClient := Some sample_client;
        w := [Fprintf "Deleted: bob/repoB<br>"];
        remote := {| hosted := ["alice/repoA"];
                     protected := ["alice/repoA"];
                     token_endpoint := token_endpoint sample_hosting |};
        calls := [CallDelete sample_client "bob" "repoB"] |}).
Proof.
  rewrite (delete_stops_at_first_missing_separator
             (selection ["bob/repoB"; "noslash"; "alice/repoA"])
             sample_client (start (Some sample_client) sample_hosting)
             ["bob/repoB"] "noslash" ["alice/repoA"]).
  - reflexivity.
  - reflexivity.
  - reflexivity.
  - repeat constructor; discriminate.
  - reflexivity.
Defined.

(** X13.  Splitting an identifier fails exactly when the identifier holds no
    [/]: then [parts[1]] panics, and otherwise an owner and a name come out;
    [parts[0]] never panics. *)
Theorem split_identifier_panics_iff_no_separator
    {R : Type} `{Provider R} (repo : string) (s : State R) :
  (split_identifier repo s = (Panic (IndexOutOfRange 1 1), s)
   <-> ~ In "/"%char (list_ascii_of_string repo))
  /\ ((exists owner name, split_identifier repo s = (Ok (owner, name), s))
      <-> In "/"%char (list_ascii_of_string repo)).
Proof.
  destruct (cut repo "/") as [[before after]|] eqn:Hcut.
  - assert (In "/"%char (list_ascii_of_string repo)) as Hin.
    { destruct (in_dec ascii_dec "/"%char (list_ascii_of_string repo))
        as [Hin|Hnot]; [exact Hin|].
      apply cut_None_iff in Hnot. congruence. }
    rewrite (split_identifier_cut _ _ _ _ Hcut).
    split; split; try done; eauto.
  - pose proof (proj1 (cut_None_iff repo "/") Hcut) as Hnot.
    rewrite (split_identifier_no_separator _ _ Hcut).
    split; split; try done. intros (owner & name & Heq). discriminate.
Qed.

(** ** What the handlers leave alone *)

Section Tame.
Context {R : Type} `{Provider R}.

(** A computation that keeps the session as it found it and does not end
    the process, on every state. *)
Definition tame {A} (m : M R A) : Prop :=
  forall s, githubClient (m s).2 = githubClient s
            /\ forall format, (m s).1 <> Exit format.

Lemma tame_ret {A} (a : A) : tame (mret a : M R A).
Proof. intros s. split; [reflexivity | discriminate]. Qed.

Lemma tame_raise {A} (p : panic) : tame (raise p : M R A).
Proof. intros s. split; [reflexivity | discriminate]. Qed.

Lemma tame_send (e : Sent) : tame (send e : M R unit).
Proof. intros s. split; [reflexivity | discriminate]. Qed.

Lemma tame_read : tame (read_githubClient : M R (option Client)).
Proof. intros s. split; [reflexivity | discriminate]. Qed.

Lemma tame_deref : tame (deref_githubClient : M R Client).
Proof.
  intros s. unfold deref_githubClient.
  destruct (githubClient s) eqn:Hc; simpl;
    (split; [done | intros format; discriminate]).
Qed.

Lemma tame_index {A} (parts : list A) (i : nat) : tame (index parts i : M R A).
Proof.
  unfold index. destruct (nth_error parts i);
    [apply (tame_ret a) | apply tame_raise].
Qed.

Lemma tame_call {A} (c : Call) (f : R -> A * R) : tame (call c f).
Proof.
  intros s. unfold call. destruct (f (remote s)) as [a r'].
  split; [reflexivity | discriminate].
Qed.

Lemma tame_bind {A B} (m : M R A) (k : A -> M R B) :
  tame m -> (forall a, tame (k a)) -> tame (m ≫= k).
Proof.
  intros Hm Hk s. unfold mbind, M_bind, bind.
  destruct (Hm s) as [Hsession Hexit].
  destruct (m s) as [[a|p|format] s'] eqn:Hrun; simpl in *.
  - destruct (Hk a s') as [Hsession' Hexit']. split; [congruence | done].
  - split; [done | intros format; discriminate].
  - by destruct (Hexit format).
Qed.

Lemma tame_repo_names (repos : list Repository) (acc : list string) :
  tame (repo_names repos acc).
Proof.
  revert acc. induction repos as [|repo rest IH]; intros acc; simpl.
  - apply (tame_ret acc).
  - destruct (FullName repo); [apply IH | apply tame_raise].
Qed.

Lemma tame_homeHandler (r : HttpRequest) : tame (homeHandler r).
Proof.
  unfold homeHandler. apply tame_bind; [apply tame_read|]. intros c.
  destruct (negb (not_nil c)); [apply tame_send|].
  apply tame_bind; [apply tame_deref|]. intros client.
  apply tame_bind; [apply tame_call|]. intros [err|[repos resp]];
    [apply tame_send|].
  apply tame_bind; [apply tame_repo_names|]. intros names.
  apply tame_bind; [apply tame_read|]. intros c'. apply tame_send.
Qed.

Lemma tame_delete_one (repo : string) : tame (delete_one repo).
Proof.
  unfold delete_one. apply tame_bind.
  - unfold split_identifier.
    apply tame_bind; [apply tame_index|]. intros owner.
    apply tame_bind; [apply tame_index|]. intros name.
    apply (tame_ret (owner, name)).
  - intros [owner name].
    apply tame_bind; [apply tame_deref|]. intros client.
    apply tame_bind; [apply tame_call|]. intros err. apply tame_send.
Qed.

Lemma tame_delete_loop (repos : list string) : tame (delete_loop repos).
Proof.
  induction repos as [|repo rest IH]; simpl.
  - apply (tame_ret tt).
  - apply tame_bind; [apply tame_delete_one | intros _; exact IH].
Qed.

Lemma tame_deleteHandler (r : HttpRequest) : tame (deleteHandler r).
Proof.
  unfold deleteHandler.
  apply tame_bind; [apply tame_delete_loop | intros _; apply tame_send].
Qed.
End Tame.

(** X14.  The session is written by the callback and by logout only: the
    home page, the login redirect and the bulk delete leave [githubClient]
    as they found it on every request, also when they panic. *)
Theorem session_kept_by_other_handlers
    {R : Type} `{Provider R} (cfg : Config) (h : Route) (r : HttpRequest)
    (s : State R) :
  h <> Callback -> h <> Logout ->
  githubClient (handler cfg h r s).2 = githubClient s.
Proof.
  intros Hcallback Hlogout. destruct h; simpl; try done.
  - apply tame_homeHandler.
  - apply tame_deleteHandler.
Qed.

Lemma session_kept_by_other_handlers_witness :
  githubClient
    (handler sample_config Delete (selection ["alice/repoA"; "noslash"])
       (start (Some sample_client) sample_hosting)).2
  = Some sample_client.
Proof.
  apply (session_kept_by_other_handlers sample_config Delete
           (selection ["alice/repoA"; "noslash"])
           (start (Some sample_client) sample_hosting));
    discriminate.
Defined.

(** X15.  The callback is the only handler that can end the process: when
    serving a request ends in [log.Fatalf], the request was a callback. *)
Theorem only_callback_ends_process
    {R : Type} `{Provider R} (cfg : Config) (h : Route) (r : HttpRequest)
    (s : State R) (format : string) :
  (handler cfg h r s).1 = Exit format -> h = Callback.
Proof.
  destruct h; simpl; intros Hexit; [| |reflexivity| |].
  - by destruct (proj2 (tame_homeHandler r s) format).
  - discriminate.
  - by destruct (proj2 (tame_deleteHandler r s) format).
  - discriminate.
Qed.

Lemma only_callback_ends_process_witness : Callback = Callback.
Proof.
  apply (only_callback_ends_process sample_config Callback
           (query "code" "abc123") (start None unreachable_hosting)
           "Failed to get token: %v").
  reflexivity.
Defined.

(** ** Handlers one after the other *)

(** X16.  After a callback whose exchange gave a token, the next home page
    is listed with a client bound to that token, whoever was logged in
    before: the two outbound calls are the token request and the listing
    under the new token. *)
Theorem callback_then_home_uses_new_token
    {R : Type} `{Provider R} (cfg : Config) (r r2 : HttpRequest)
    (s : State R) (token : string) (result : gmap string json) (r' : R) :
  Values_Get (Query r) "code" <> "" ->
  http_Do (token_request cfg (Values_Get (Query r) "code")) (remote s)
    = (inr result, r') ->
  result !! "access_token" = Some (JString token) ->
  calls (homeHandler r2 (callbackHandler cfg r s).2).2 =
  calls s
  ++ [CallDo (token_request cfg (Values_Get (Query r) "code"));
      CallList {| AccessToken := token |}
        {| PerPage := 10; Page := page_of r2 |}].
Proof.
  intros Hcode Hdo Htoken.
  rewrite (callbackHandler_run cfg r s token result r' Hcode Hdo Htoken).
  rewrite (homeHandler_calls r2 {| AccessToken := token |}) by reflexivity.
  simpl. by rewrite <- app_assoc.
Qed.

Lemma callback_then_home_uses_new_token_witness :
  calls (homeHandler (query "page" "2")
           (callbackHandler sample_config (query "code" "abc123")
              (start (Some {| AccessToken := "old" |}) sample_hosting)).2).2
  = [CallDo (token_request sample_config "abc123");
     CallList {| AccessToken := "tok_1" |} {| PerPage := 10; Page := 2 |}].
Proof.
  rewrite (callback_then_home_uses_new_token sample_config
             (query "code" "abc123") (query "page" "2")
             (start (Some {| AccessToken := "old" |}) sample_hosting)
             "tok_1" {[ "access_token" := JString "tok_1" ]} sample_hosting).
  - reflexivity.
  - vm_compute. discriminate.
  - reflexivity.
  - reflexivity.
Defined.

(** X17.  After a logout, whatever the session was, the next home page is
    a redirect to [/login] and the provider has not been called by either
    request. *)
Theorem logout_then_home_redirects
    {R : Type} `{Provider R} (r r2 : HttpRequest) (s : State R) :
  homeHandler r2 (logoutHandler r s).2 =
  (Ok tt,
   {| githubClient := None;
      w := w s ++ [Redirect "/" StatusFound; Redirect "/login" StatusFound];
      remote := remote s;
      calls := calls s |}).
Proof.
  unfold homeHandler, logoutHandler. run. by rewrite <- app_assoc.
Qed.
